(** * The declared surface of [types/lib/sequelize.d.ts]

    The file is a TypeScript declaration file: it holds imports,
    interfaces, type aliases, one class declaration and a handful of
    function signatures.  This development embeds those declarations as
    Rocq data (module [Decl]), gives the value-level meaning of the
    primitive part of the type language (module [Sem]), transcribes the
    file declaration by declaration (module [Src]), resolves named types
    and calls against the declarations (modules [Resolve], [Named],
    [Call] and [File]) and proves the properties of the declared
    surface. *)

From Stdlib Require Import List String Bool.
Import ListNotations.
Local Open Scope string_scope.
Local Open Scope list_scope.

Set Warnings "-register-all".

(** ** Declaration syntax *)

Module Decl.

(** Type expressions, as they occur in the file.  A qualified name such
    as [QueryTypes.UPDATE] is a [TRef] whose name keeps the dot. *)
Inductive ty : Type :=
| TString
| TNumber
| TBoolean
| TObject
| TUnknown
| TVoid
| TUndefined
| TNull
| TThis
| TLit (s : string)
| TRef (name : string) (args : list ty)
| TTypeof (name : string)
| TArray (elem : ty)
| TTuple (elems : list ty)
| TUnion (alts : list ty)
| TShape (members : list member)
| TFun (params : list param) (ret : ty)
with member : Type :=
| MProp (name : string) (readonly optional : bool) (t : ty)
| MMethod (name : string) (optional : bool) (params : list param) (ret : ty)
| MIndex (key : string) (keyty : ty) (t : ty)
with param : Type :=
| Param (name : string) (optional rest : bool) (t : ty).

(** A type parameter with its optional [extends] bound. *)
Definition tparam : Type := (string * option ty)%type.

(** A block of statements, kept as source text.  Ambient declarations
    have none; the syntax still has room for one. *)
Inductive block : Type :=
| Block (stmts : list string).

Record signature : Type := Sig {
  sig_tparams : list tparam;
  sig_params : list param;
  sig_ret : ty
}.

Inductive class_member : Type :=
| CField (static readonly : bool) (name : string) (t : ty)
| CCtor (params : list param) (body : option block)
| CMethod (static : bool) (name : string) (sg : signature)
          (body : option block).

Record interface : Type := Interface {
  i_name : string;
  i_extends : list string;
  i_members : list member
}.

Record class : Type := Class {
  c_name : string;
  c_extends : option string;
  c_members : list class_member
}.

Inductive import_clause : Type :=
| INamespace (alias : string)
| INamed (names : list string)
| IRequire (alias : string).

Inductive item : Type :=
| DImport (clause : import_clause) (from : string)
| DInterface (i : interface)
| DTypeAlias (name : string) (t : ty)
| DClass (c : class)
| DFunction (name : string) (sg : signature) (body : option block)
| DExportDefault (name : string)
| DStatement (src : string).

(** *** Accessors on members *)

Definition member_name (m : member) : string :=
  match m with
  | MProp n _ _ _ => n
  | MMethod n _ _ _ => n
  | MIndex k _ _ => k
  end.

Definition member_optional (m : member) : bool :=
  match m with
  | MProp _ _ o _ => o
  | MMethod _ o _ _ => o
  | MIndex _ _ _ => true
  end.

Definition member_is_method (m : member) : bool :=
  match m with
  | MMethod _ _ _ _ => true
  | _ => false
  end.

Definition required_members (ms : list member) : list member :=
  filter (fun m => negb (member_optional m)) ms.

Definition method_members (ms : list member) : list member :=
  filter member_is_method ms.

(** The declared type of the property [n], if the member list has one. *)
Fixpoint prop_type (n : string) (ms : list member) : option ty :=
  match ms with
  | [] => None
  | MProp n' _ _ t :: ms' => if String.eqb n n' then Some t else prop_type n ms'
  | _ :: ms' => prop_type n ms'
  end.

(** Every property is [readonly], also inside nested object shapes. *)
Fixpoint deep_readonly (t : ty) : bool :=
  match t with
  | TShape ms => forallb member_readonly ms
  | TArray e => deep_readonly e
  | TUnion ts => forallb deep_readonly ts
  | TTuple ts => forallb deep_readonly ts
  | _ => true
  end
with member_readonly (m : member) : bool :=
  match m with
  | MProp _ ro _ t => ro && deep_readonly t
  | MMethod _ _ _ _ => false
  | MIndex _ _ _ => false
  end.

(** *** Accessors on class members *)

Definition cm_body (m : class_member) : option block :=
  match m with
  | CField _ _ _ _ => None
  | CCtor _ b => b
  | CMethod _ _ _ b => b
  end.

(** The overloads of the instance method [n], in declaration order. *)
Fixpoint overloads (n : string) (ms : list class_member) : list signature :=
  match ms with
  | [] => []
  | CMethod false n' sg _ :: ms' =>
      if String.eqb n n' then sg :: overloads n ms' else overloads n ms'
  | _ :: ms' => overloads n ms'
  end.

(** The declared type of a field of the class. *)
Fixpoint field_decl (n : string) (ms : list class_member)
  : option (bool * bool * ty) :=
  match ms with
  | [] => None
  | CField st ro n' t :: ms' =>
      if String.eqb n n' then Some (st, ro, t) else field_decl n ms'
  | _ :: ms' => field_decl n ms'
  end.

(** *** Names a declaration mentions *)

Fixpoint ty_refs (t : ty) : list string :=
  match t with
  | TRef n args => n :: flat_map ty_refs args
  | TTypeof n => [n]
  | TArray e => ty_refs e
  | TTuple ts => flat_map ty_refs ts
  | TUnion ts => flat_map ty_refs ts
  | TShape ms => flat_map member_refs ms
  | TFun ps r => flat_map param_refs ps ++ ty_refs r
  | _ => []
  end
with member_refs (m : member) : list string :=
  match m with
  | MProp _ _ _ t => ty_refs t
  | MMethod _ _ ps r => flat_map param_refs ps ++ ty_refs r
  | MIndex _ kt t => ty_refs kt ++ ty_refs t
  end
with param_refs (p : param) : list string :=
  match p with
  | Param _ _ _ t => ty_refs t
  end.

Definition tparam_refs (tp : tparam) : list string :=
  match snd tp with
  | Some t => ty_refs t
  | None => []
  end.

Definition sig_refs (sg : signature) : list string :=
  flat_map tparam_refs (sig_tparams sg) ++
  flat_map param_refs (sig_params sg) ++
  ty_refs (sig_ret sg).

Definition cm_refs (m : class_member) : list string :=
  match m with
  | CField _ _ _ t => ty_refs t
  | CCtor ps _ => flat_map param_refs ps
  | CMethod _ _ sg _ => sig_refs sg
  end.

(** Every name an item imports, declares or refers to. *)
Definition item_names (d : item) : list string :=
  match d with
  | DImport (INamespace a) _ => [a]
  | DImport (INamed ns) _ => ns
  | DImport (IRequire a) _ => [a]
  | DInterface i => i_name i :: i_extends i ++ flat_map member_refs (i_members i)
  | DTypeAlias n t => n :: ty_refs t
  | DClass c =>
      c_name c ::
      match c_extends c with Some b => [b] | None => [] end ++
      flat_map cm_refs (c_members c)
  | DFunction n sg _ => n :: sig_refs sg
  | DExportDefault n => [n]
  | DStatement _ => []
  end.

(** A name that reads as an error type. *)
Definition names_error (n : string) : bool :=
  match String.index 0 "Error" n with
  | Some _ => true
  | None => false
  end.

(** *** Executable content *)

Definition no_body (b : option block) : bool :=
  match b with
  | None => true
  | Some _ => false
  end.

(** An item is a pure declaration: it is not a statement and none of the
    signatures it holds carries a body. *)
Definition is_declaration (d : item) : bool :=
  match d with
  | DImport _ _ => true
  | DInterface _ => true
  | DTypeAlias _ _ => true
  | DClass c => forallb (fun m => no_body (cm_body m)) (c_members c)
  | DFunction _ _ b => no_body b
  | DExportDefault _ => true
  | DStatement _ => false
  end.

Definition interfaces_of (f : list item) : list interface :=
  flat_map (fun d => match d with DInterface i => [i] | _ => [] end) f.

Definition constructors_of (ms : list class_member) : list (list param) :=
  flat_map (fun m => match m with CCtor ps _ => [ps] | _ => [] end) ms.

Definition find_member (n : string) (ms : list member) : option member :=
  find (fun m => String.eqb n (member_name m)) ms.

Definition param_optional (p : param) : bool :=
  match p with Param _ o _ _ => o end.

Definition param_type (p : param) : ty :=
  match p with Param _ _ _ t => t end.

End Decl.

(** ** Values and admissibility

    The meaning of the structural part of the type language under strict
    null checks: which JavaScript values a type expression admits.  The
    carrier of numbers is left abstract.  Named references, [typeof]
    queries and [this] are not interpreted here: the properties below use
    [admits] on reference-free types only. *)

Module Sem.
Import Decl.

Section Values.

Context {number : Type}.

Inductive value : Type :=
| VUndefined
| VNull
| VBool (b : bool)
| VNum (n : number)
| VStr (s : string)
| VArr (vs : list value)
| VObj (fields : list (string * value))
| VFun.

Fixpoint get (k : string) (fs : list (string * value)) : option value :=
  match fs with
  | [] => None
  | (k', v) :: fs' => if String.eqb k k' then Some v else get k fs'
  end.

Fixpoint admits (t : ty) (v : value) {struct t} : bool :=
  match t with
  | TString => match v with VStr _ => true | _ => false end
  | TNumber => match v with VNum _ => true | _ => false end
  | TBoolean => match v with VBool _ => true | _ => false end
  | TObject =>
      match v with VArr _ | VObj _ | VFun => true | _ => false end
  | TUnknown => true
  | TVoid => match v with VUndefined => true | _ => false end
  | TUndefined => match v with VUndefined => true | _ => false end
  | TNull => match v with VNull => true | _ => false end
  | TLit s => match v with VStr s' => String.eqb s s' | _ => false end
  | TArray e => match v with VArr vs => forallb (admits e) vs | _ => false end
  | TTuple ts =>
      match v with
      | VArr vs =>
          (fix zip (ts : list ty) (vs : list value) : bool :=
             match ts, vs with
             | [], [] => true
             | t' :: ts', v' :: vs' => admits t' v' && zip ts' vs'
             | _, _ => false
             end) ts vs
      | _ => false
      end
  | TUnion ts => existsb (fun t' => admits t' v) ts
  | TShape ms =>
      match v with
      | VObj fs => forallb (fun m => member_admits m fs) ms
      | _ => false
      end
  | TFun _ _ => match v with VFun => true | _ => false end
  | TThis | TRef _ _ | TTypeof _ => false
  end
with member_admits (m : member) (fs : list (string * value)) {struct m}
  : bool :=
  match m with
  | MProp n _ o t =>
      match get n fs with
      | Some v => admits t v
      | None => o
      end
  | MMethod n o _ _ =>
      match get n fs with
      | Some VFun => true
      | Some _ => false
      | None => o
      end
  | MIndex _ _ t => forallb (fun kv => admits t (snd kv)) fs
  end.

(** Admissibility at the declared type of the property [n] of [i]. *)
Definition field_admits (i : interface) (n : string) (v : value) : bool :=
  match prop_type n (i_members i) with
  | Some t => admits t v
  | None => false
  end.

End Values.

Arguments value : clear implicits.

End Sem.

(** ** The declarations of [sequelize.d.ts], in source order *)

Module Src.
Import Decl.

(** Shorthands for the member and parameter forms the file uses. *)
Definition opt (n : string) (t : ty) : member := MProp n false true t.
Definition req (n : string) (t : ty) : member := MProp n false false t.
Definition ro_req (n : string) (t : ty) : member := MProp n true false t.
Definition ro_opt (n : string) (t : ty) : member := MProp n true true t.
Definition arg (n : string) (t : ty) : param := Param n false false t.
Definition arg_opt (n : string) (t : ty) : param := Param n true false t.
Definition arg_rest (n : string) (t : ty) : param := Param n false true t.
Definition ref (n : string) : ty := TRef n [].
Definition Promise (t : ty) : ty := TRef "Promise" [t].

Definition imports : list item :=
  [ DImport (INamespace "DataTypes") "./data-types";
    DImport (INamespace "Deferrable") "./deferrable";
    DImport (INamed ["HookReturn"; "SequelizeHooks"; "SequelizeHooksBase"])
            "./hooks";
    DImport (INamed ["ValidationOptions"]) "./instance-validator";
    DImport (INamed ["AndOperator"; "BulkCreateOptions"; "CreateOptions";
                     "DestroyOptions"; "DropOptions"; "FindOptions";
                     "InstanceDestroyOptions"; "Logging"; "Model";
                     "ModelAttributeColumnOptions"; "ModelAttributes";
                     "ModelOptions"; "OrOperator"; "UpdateOptions";
                     "WhereAttributeHash"; "WhereOperators"]) "./model";
    DImport (INamed ["ModelManager"]) "./model-manager";
    DImport (INamespace "Op") "./operators";
    DImport (INamed ["Promise"]) "./promise";
    DImport (INamed ["QueryInterface"; "QueryOptions";
                     "QueryOptionsWithModel"; "QueryOptionsWithType"])
            "./query-interface";
    DImport (IRequire "QueryTypes") "./query-types";
    DImport (INamed ["Transaction"; "TransactionOptions"]) "./transaction";
    DImport (INamed ["Cast"; "Col"; "Fn"; "Json"; "Literal"; "Where"])
            "./utils";
    DImport (INamespace "Utils") "./utils";
    DImport (INamed ["validator"]) "./utils/validator-extras";
    DImport (INamed ["ConnectionManager"]) "./connection-manager" ].

Definition SyncOptions : interface :=
  Interface "SyncOptions" ["Logging"]
    [ opt "force" TBoolean;
      opt "match" (ref "RegExp");
      opt "schema" TString ].

Definition DefaultSetOptions : interface :=
  Interface "DefaultSetOptions" [] [].

Definition PoolOptions : interface :=
  Interface "PoolOptions" []
    [ opt "max" TNumber;
      opt "min" TNumber;
      opt "idle" TNumber;
      opt "acquire" TNumber;
      MMethod "validate" true [arg_opt "client" TUnknown] TBoolean ].

Definition ConnectionOptions : interface :=
  Interface "ConnectionOptions" []
    [ opt "host" TString;
      opt "port" (TUnion [TString; TNumber]);
      opt "username" TString;
      opt "password" TString;
      opt "database" TString ].

Definition ReplicationOptions : interface :=
  Interface "ReplicationOptions" []
    [ req "read" (TArray (ref "ConnectionOptions"));
      req "write" (ref "ConnectionOptions") ].

Definition Config : interface :=
  Interface "Config" []
    [ ro_req "database" TString;
      ro_opt "dialectModule" TObject;
      ro_opt "host" TString;
      ro_opt "port" TString;
      ro_req "username" TString;
      ro_req "password" (TUnion [TString; TNull]);
      ro_opt "pool"
        (TShape [ ro_req "acquire" TNumber;
                  ro_req "idle" TNumber;
                  ro_req "max" TNumber;
                  ro_req "min" TNumber ]);
      ro_req "protocol" (TLit "tcp");
      ro_req "native" TBoolean;
      ro_req "ssl" TBoolean;
      ro_req "replication" TBoolean;
      ro_req "dialectModulePath" (TUnion [TNull; TString]);
      ro_opt "keepDefaultTimezone" TBoolean;
      ro_opt "dialectOptions"
        (TShape [ ro_opt "charset" TString;
                  ro_opt "timeout" TNumber ]) ].

Definition Dialect : ty :=
  TUnion [ TLit "mysql"; TLit "postgres"; TLit "sqlite"; TLit "mariadb";
           TLit "mssql"; TLit "mariadb" ].

Definition RetryOptions : interface :=
  Interface "RetryOptions" []
    [ opt "match" (TArray (TUnion [ref "RegExp"; TString; ref "Function"]));
      opt "max" TNumber ].

Definition Options : interface :=
  Interface "Options" ["Logging"]
    [ opt "dialect" (ref "Dialect");
      opt "dialectModule" TObject;
      opt "dialectModulePath" TString;
      opt "dialectOptions" TObject;
      opt "storage" TString;
      opt "database" TString;
      opt "username" TString;
      opt "password" TString;
      opt "host" TString;
      opt "port" TNumber;
      opt "ssl" TBoolean;
      opt "protocol" TString;
      opt "define" (ref "ModelOptions");
      opt "query" (ref "QueryOptions");
      opt "set" (ref "DefaultSetOptions");
      opt "sync" (ref "SyncOptions");
      opt "timezone" TString;
      opt "omitNull" TBoolean;
      opt "native" TBoolean;
      opt "replication" (ref "ReplicationOptions");
      opt "pool" (ref "PoolOptions");
      opt "quoteIdentifiers" TBoolean;
      opt "isolationLevel" TString;
      opt "typeValidation" TBoolean;
      opt "standardConformingStrings" TBoolean;
      opt "hooks" (TRef "Partial" [ref "SequelizeHooks"]);
      opt "retry" (ref "RetryOptions") ].

Definition QueryOptionsTransactionRequired : interface :=
  Interface "QueryOptionsTransactionRequired" [] [].

(** The first parameter of every [query] overload. *)
Definition sql_param : param :=
  arg "sql" (TUnion [ TString;
                      TShape [ req "query" TString;
                               req "values" (TArray TUnknown) ] ]).

Definition QueryOptionsWithType (k : string) : ty :=
  TRef "QueryOptionsWithType" [ref ("QueryTypes." ++ k)].

(** A [query] overload that takes [QueryOptionsWithType<QueryTypes.k>]. *)
Definition query_typed (k : string) (r : ty) : class_member :=
  CMethod false "query"
    (Sig [] [sql_param; arg "options" (QueryOptionsWithType k)] (Promise r))
    None.

Definition describe_result : ty :=
  TShape [ MIndex "key" TString
             (TShape [ req "type" TString;
                       req "allowNull" TBoolean;
                       req "defaultValue" TString;
                       req "primaryKey" TBoolean;
                       req "autoIncrement" TBoolean;
                       req "comment" (TUnion [TString; TNull]) ]) ].

Definition autoCallback (r : string) : param :=
  arg "autoCallback"
      (TFun [arg "t" (ref "Transaction")] (TRef "PromiseLike" [ref r])).

Definition method (n : string) (ps : list param) (r : ty) : class_member :=
  CMethod false n (Sig [] ps r) None.

Definition Sequelize : class :=
  Class "Sequelize" (Some "SequelizeHooksBase")
    [ CField true false "fn" (TTypeof "fn");
      CField true false "col" (TTypeof "col");
      CField true false "cast" (TTypeof "cast");
      CField true false "literal" (TTypeof "literal");
      CField true false "and" (TTypeof "and");
      CField true false "or" (TTypeof "or");
      CField true false "json" (TTypeof "json");
      CField true false "where" (TTypeof "where");
      CMethod true "useCLS"
        (Sig [] [arg "namespace" TObject] (TTypeof "Sequelize")) None;
      CField false false "Sequelize" (TTypeof "Sequelize");
      CField false true "config" (ref "Config");
      CField false true "modelManager" (ref "ModelManager");
      CField false true "connectionManager" (ref "ConnectionManager");
      CField false true "models"
        (TShape [MIndex "key" TString (TTypeof "Model")]);
      CCtor [ arg "database" TString; arg "username" TString;
              arg_opt "password" TString; arg_opt "options" (ref "Options") ]
            None;
      CCtor [ arg "database" TString; arg "username" TString;
              arg_opt "options" (ref "Options") ] None;
      CCtor [ arg_opt "options" (ref "Options") ] None;
      CCtor [ arg "uri" TString; arg_opt "options" (ref "Options") ] None;
      method "getDialect" [] TString;
      method "getQueryInterface" [] (ref "QueryInterface");
      method "define"
        [ arg "modelName" TString; arg "attributes" (ref "ModelAttributes");
          arg_opt "options" (ref "ModelOptions") ] (TTypeof "Model");
      method "model" [arg "modelName" TString] (TTypeof "Model");
      method "isDefined" [arg "modelName" TString] TBoolean;
      CMethod false "import"
        (Sig [("T", Some (TTypeof "Model"))]
             [ arg "path" TString;
               arg_opt "defineFunction"
                 (TFun [ arg "sequelize" (ref "Sequelize");
                         arg "dataTypes" (TTypeof "DataTypes") ] (ref "T")) ]
             (ref "T")) None;
      query_typed "UPDATE" (TTuple [TUndefined; TNumber]);
      query_typed "BULKUPDATE" TNumber;
      query_typed "INSERT" (TTuple [TNumber; TNumber]);
      query_typed "UPSERT" TNumber;
      query_typed "DELETE" TVoid;
      query_typed "BULKDELETE" TNumber;
      query_typed "SHOWTABLES" (TArray TString);
      query_typed "DESCRIBE" describe_result;
      CMethod false "query"
        (Sig [("M", Some (ref "Model"))]
             [sql_param; arg "options" (ref "QueryOptionsWithModel")]
             (Promise (TArray (ref "M")))) None;
      CMethod false "query"
        (Sig [("T", Some TObject)]
             [sql_param; arg "options" (QueryOptionsWithType "SELECT")]
             (Promise (TArray (ref "T")))) None;
      method "query"
        [ sql_param;
          arg_opt "options"
            (TUnion [ref "QueryOptions"; QueryOptionsWithType "RAW"]) ]
        (Promise (TArray TUnknown));
      method "random" [] (ref "Fn");
      method "set"
        [ arg "variables" TObject;
          arg "options" (ref "QueryOptionsTransactionRequired") ]
        (Promise TUnknown);
      method "escape"
        [arg "value" (TUnion [TString; TNumber; ref "Date"])] TString;
      method "createSchema"
        [arg "schema" TString; arg "options" (ref "Logging")]
        (Promise TUnknown);
      method "showAllSchemas" [arg "options" (ref "Logging")]
        (Promise (TArray TObject));
      method "dropSchema"
        [arg "schema" TString; arg "options" (ref "Logging")]
        (Promise (TArray TUnknown));
      method "dropAllSchemas" [arg "options" (ref "Logging")]
        (Promise (TArray TUnknown));
      method "sync" [arg_opt "options" (ref "SyncOptions")] (Promise TThis);
      method "truncate" [arg_opt "options" (ref "DestroyOptions")]
        (Promise (TArray TUnknown));
      method "drop" [arg_opt "options" (ref "DropOptions")]
        (Promise (TArray TUnknown));
      method "authenticate" [arg_opt "options" (ref "QueryOptions")]
        (Promise TVoid);
      method "validate" [arg_opt "options" (ref "QueryOptions")]
        (Promise TVoid);
      CMethod false "transaction"
        (Sig [("T", None)]
             [arg "options" (ref "TransactionOptions"); autoCallback "T"]
             (Promise (ref "T"))) None;
      CMethod false "transaction"
        (Sig [("T", None)] [autoCallback "T"] (Promise (ref "T"))) None;
      method "transaction" [arg_opt "options" (ref "TransactionOptions")]
        (Promise (ref "Transaction"));
      method "close" [] (Promise TVoid);
      method "databaseVersion" [] (Promise TString) ].

Definition where_args : ty :=
  TArray (TUnion [ref "WhereOperators"; ref "WhereAttributeHash";
                  ref "Where"]).

Definition AttributeType : ty :=
  TUnion [ ref "Fn"; ref "Col"; ref "Literal";
           ref "ModelAttributeColumnOptions"; TString ].

Definition LogicType : ty :=
  TUnion [ ref "Fn"; ref "Col"; ref "Literal"; ref "OrOperator";
           ref "AndOperator"; ref "WhereOperators"; TString ].

Definition utilities : list item :=
  [ DFunction "fn"
      (Sig [] [arg "fn" TString; arg_rest "args" (TArray TUnknown)]
           (ref "Fn")) None;
    DFunction "col" (Sig [] [arg "col" TString] (ref "Col")) None;
    DFunction "cast"
      (Sig [] [arg "val" TUnknown; arg "type" TString] (ref "Cast")) None;
    DFunction "literal" (Sig [] [arg "val" TString] (ref "Literal")) None;
    DFunction "and" (Sig [] [arg_rest "args" where_args] (ref "AndOperator"))
      None;
    DFunction "or" (Sig [] [arg_rest "args" where_args] (ref "OrOperator"))
      None;
    DFunction "json"
      (Sig [] [ arg "conditionsOrPath" (TUnion [TString; TObject]);
                arg_opt "value" (TUnion [TString; TNumber; TBoolean]) ]
           (ref "Json")) None;
    DTypeAlias "AttributeType" AttributeType;
    DTypeAlias "LogicType" LogicType;
    DFunction "where"
      (Sig [] [ arg "attr" (ref "AttributeType"); arg "comparator" TString;
                arg "logic" (ref "LogicType") ] (ref "Where")) None;
    DFunction "where"
      (Sig [] [ arg "attr" (ref "AttributeType");
                arg "logic" (ref "LogicType") ] (ref "Where")) None ].

(** The whole file. *)
Definition sequelize_d_ts : list item :=
  imports ++
  [ DInterface SyncOptions;
    DInterface DefaultSetOptions;
    DInterface PoolOptions;
    DInterface ConnectionOptions;
    DInterface ReplicationOptions;
    DInterface Config;
    DTypeAlias "Dialect" Dialect;
    DInterface RetryOptions;
    DInterface Options;
    DInterface QueryOptionsTransactionRequired;
    DClass Sequelize ] ++
  utilities ++
  [ DExportDefault "Sequelize" ].

End Src.

(** ** Overload resolution for [query]

    A call is matched against the overloads in declaration order and the
    first one whose parameters accept the arguments is chosen. *)

Module Resolve.
Import Decl.

(** The options argument of a call to [query], as far as the overloads
    tell calls apart: the query kind in [type], if any, and whether a
    [model] is given. *)
Record query_options : Type := QO {
  qo_type : option string;
  qo_model : bool
}.

(** Modelled from the spec: the option shapes [QueryOptions],
    [QueryOptionsWithType<T>] and [QueryOptionsWithModel] are imported
    from ['./query-interface'] and not declared in this file.  Per the
    spec's "typed result shapes per query kind",
    [QueryOptionsWithType<QueryTypes.K>] is the shape of options whose
    [type] is [K], [QueryOptionsWithModel] of options that carry a
    [model], and [QueryOptions] of any options. *)
Fixpoint options_admit (t : ty) (o : query_options) : bool :=
  match t with
  | TRef n [] =>
      if String.eqb n "QueryOptionsWithModel" then qo_model o
      else String.eqb n "QueryOptions"
  | TRef n [TRef k []] =>
      String.eqb n "QueryOptionsWithType" &&
      match qo_type o with
      | Some k' => String.eqb k ("QueryTypes." ++ k')
      | None => false
      end
  | TUnion ts => existsb (fun t' => options_admit t' o) ts
  | _ => false
  end.

(** An optional parameter accepts a missing argument. *)
Definition param_accepts (p : param) (a : option query_options) : bool :=
  match a with
  | None => param_optional p
  | Some o => options_admit (param_type p) o
  end.

(** The overloads of [query] all take [sql] first; they differ in the
    second parameter. *)
Definition applicable (a : option query_options) (sg : signature) : bool :=
  match sig_params sg with
  | [_; p] => param_accepts p a
  | _ => false
  end.

Definition resolve (sgs : list signature) (a : option query_options)
  : option signature :=
  find (applicable a) sgs.

(** The candidates for a call to [query]: its overloads in the class, in
    declaration order (the list is stored evaluated). *)
Definition query_overloads : list signature :=
  Eval vm_compute in overloads "query" (c_members Src.Sequelize).

Definition query_signature (a : option query_options) : option signature :=
  resolve query_overloads a.

Definition query_result (a : option query_options) : option ty :=
  option_map sig_ret (query_signature a).

(** Options that give the query kind [k]. *)
Definition typed (k : string) (m : bool) : option query_options :=
  Some (QO (Some k) m).

End Resolve.

(** ** Named types

    Admissibility with the references resolved.  A name that the file
    declares as an interface or as an alias stands for its declaration;
    an interface admits what its own members admit and every interface
    it extends admits.  Names declared elsewhere (imports, library types,
    type parameters in scope) are left to [ext], and so are [typeof]
    queries and [this].  Each reference that is followed costs one unit
    of fuel. *)

Module Named.
Import Decl Sem.

(** The interface or alias that the file declares under the name [n]:
    the interfaces it extends and its body. *)
Fixpoint lookup (n : string) (f : list item) : option (list string * ty) :=
  match f with
  | [] => None
  | DInterface i :: f' =>
      if String.eqb n (i_name i)
      then Some (i_extends i, TShape (i_members i))
      else lookup n f'
  | DTypeAlias n' t :: f' =>
      if String.eqb n n' then Some ([], t) else lookup n f'
  | _ :: f' => lookup n f'
  end.

(** A type expression without references, [typeof] queries or [this]:
    its meaning does not depend on any declaration. *)
Fixpoint ref_free (t : ty) : bool :=
  match t with
  | TRef _ _ | TTypeof _ | TThis => false
  | TArray e => ref_free e
  | TTuple ts => forallb ref_free ts
  | TUnion ts => forallb ref_free ts
  | TShape ms => forallb member_ref_free ms
  | _ => true
  end
with member_ref_free (m : member) : bool :=
  match m with
  | MProp _ _ _ t => ref_free t
  | MMethod _ _ _ _ => true
  | MIndex _ _ t => ref_free t
  end.

Section Named.

Context {number : Type}.
Variable ext : string -> list ty -> value number -> bool.
Variable file : list item.

Section Step.

Variable rec : ty -> value number -> bool.

Fixpoint admits_step (t : ty) (v : value number) {struct t} : bool :=
  match t with
  | TString => match v with VStr _ => true | _ => false end
  | TNumber => match v with VNum _ => true | _ => false end
  | TBoolean => match v with VBool _ => true | _ => false end
  | TObject =>
      match v with VArr _ | VObj _ | VFun => true | _ => false end
  | TUnknown => true
  | TVoid => match v with VUndefined => true | _ => false end
  | TUndefined => match v with VUndefined => true | _ => false end
  | TNull => match v with VNull => true | _ => false end
  | TLit s => match v with VStr s' => String.eqb s s' | _ => false end
  | TArray e =>
      match v with VArr vs => forallb (admits_step e) vs | _ => false end
  | TTuple ts =>
      match v with
      | VArr vs =>
          (fix zip (ts : list ty) (vs : list (value number)) : bool :=
             match ts, vs with
             | [], [] => true
             | t' :: ts', v' :: vs' => admits_step t' v' && zip ts' vs'
             | _, _ => false
             end) ts vs
      | _ => false
      end
  | TUnion ts => existsb (fun t' => admits_step t' v) ts
  | TShape ms =>
      match v with
      | VObj fs => forallb (fun m => member_step m fs) ms
      | _ => false
      end
  | TFun _ _ => match v with VFun => true | _ => false end
  | TRef n args =>
      match lookup n file with
      | Some (exts, body) =>
          rec body v && forallb (fun e => rec (TRef e []) v) exts
      | None => ext n args v
      end
  | TTypeof n => ext ("typeof " ++ n) [] v
  | TThis => ext "this" [] v
  end
with member_step (m : member) (fs : list (string * value number))
                 {struct m} : bool :=
  match m with
  | MProp n _ o t =>
      match get n fs with
      | Some v => admits_step t v
      | None => o
      end
  | MMethod n o _ _ =>
      match get n fs with
      | Some VFun => true
      | Some _ => false
      | None => o
      end
  | MIndex _ _ t => forallb (fun kv => admits_step t (snd kv)) fs
  end.

End Step.

Fixpoint admits_in (fuel : nat) : ty -> value number -> bool :=
  match fuel with
  | O => fun _ _ => false
  | S fuel' => admits_step (admits_in fuel')
  end.

End Named.

End Named.

(** ** Calls

    Whether a parameter list accepts an argument list, and the overload
    a call selects: the first one, in declaration order, that accepts
    the arguments. *)

Module Call.
Import Decl Sem.

Section Call.

Context {number : Type}.
Variable adm : ty -> value number -> bool.

Definition is_undefined (v : value number) : bool :=
  match v with
  | VUndefined => true
  | _ => false
  end.

(** Arguments are matched by position.  An optional parameter may be
    left out or passed [undefined]; a rest parameter, which has an array
    type, takes all the arguments that are left. *)
Fixpoint args_accepted (ps : list param) (args : list (value number))
  : bool :=
  match ps with
  | [] => match args with [] => true | _ :: _ => false end
  | Param _ o rest t :: ps' =>
      if rest then adm t (VArr args)
      else
        match args with
        | [] => o && args_accepted ps' []
        | a :: args' =>
            (adm t a || (o && is_undefined a)) && args_accepted ps' args'
        end
  end.

Definition select (sgs : list signature) (args : list (value number))
  : option signature :=
  find (fun sg => args_accepted (sig_params sg) args) sgs.

Definition select_ctor (cs : list (list param)) (args : list (value number))
  : option (list param) :=
  find (fun ps => args_accepted ps args) cs.

End Call.

(** The signatures of the functions that the file declares under [n]. *)
Fixpoint functions_named (n : string) (f : list item) : list signature :=
  match f with
  | [] => []
  | DFunction n' sg _ :: f' =>
      if String.eqb n n' then sg :: functions_named n f'
      else functions_named n f'
  | _ :: f' => functions_named n f'
  end.

Definition function_names (f : list item) : list string :=
  flat_map (fun d => match d with DFunction n _ _ => [n] | _ => [] end) f.

Definition static_fields (ms : list class_member) : list (string * ty) :=
  flat_map (fun m => match m with
                     | CField true _ n t => [(n, t)]
                     | _ => []
                     end) ms.

End Call.

(** ** The file's types and calls *)

Module File.
Import Decl Sem Src Named Call.

Section File.

Context {number : Type}.
Variable ext : string -> list ty -> value number -> bool.

(** No chain of references in the file is longer than four: with that
    much fuel and [k] to spare, resolution never stops early. *)
Definition admits_at (k : nat) (t : ty) (v : value number) : bool :=
  admits_in ext sequelize_d_ts (4 + k) t v.

(** Admissibility at the declared type of the property [n] of [i]. *)
Definition field_admits_at (k : nat) (i : interface) (n : string)
           (v : value number) : bool :=
  match prop_type n (i_members i) with
  | Some t => admits_at k t v
  | None => false
  end.

(** The constructor overload that [new Sequelize(args)] selects. *)
Definition constructor_for (k : nat) (args : list (value number))
  : option (list param) :=
  select_ctor (admits_at k) (constructors_of (c_members Sequelize)) args.

(** The overload that a call of the instance method [n] selects. *)
Definition method_for (k : nat) (n : string) (args : list (value number))
  : option signature :=
  select (admits_at k) (overloads n (c_members Sequelize)) args.

(** The overload that a call of the exported function [n] selects. *)
Definition function_for (k : nat) (n : string) (args : list (value number))
  : option signature :=
  select (admits_at k) (functions_named n sequelize_d_ts) args.

End File.

End File.

(** ** Properties *)

Import Decl Sem Src Resolve.

(** *** Vocabulary of the properties *)

(** The last overload of [query], which takes the options optionally and
    at the widest type. *)
Definition query_fallback : signature :=
  Sig [] [ sql_param;
           arg_opt "options"
             (TUnion [ref "QueryOptions"; QueryOptionsWithType "RAW"]) ]
      (Promise (TArray TUnknown)).

(** The operations of the class that reach the database. *)
Definition fallible_operations : list string :=
  [ "query"; "set"; "createSchema"; "showAllSchemas"; "dropSchema";
    "dropAllSchemas"; "sync"; "truncate"; "drop"; "authenticate";
    "validate"; "transaction"; "close"; "databaseVersion" ].

(** Every overload of [n] is declared and returns a promise. *)
Definition asynchronous (n : string) : Prop :=
  overloads n (c_members Sequelize) <> [] /\
  Forall (fun sg => exists t, sig_ret sg = Promise t)
         (overloads n (c_members Sequelize)).

(** The interfaces that configure the constructor. *)
Definition configuration_interfaces : list interface :=
  [Options; PoolOptions; SyncOptions; ConnectionOptions; ReplicationOptions].

Definition all_optional (i : interface) : bool :=
  forallb member_optional (i_members i).

(** [Options] and [SyncOptions] extend [Logging], which is declared in
    ['./model']: the members of an interface together with those it
    inherits from a given [Logging]. *)
Definition inherited_members (Logging i : interface) : list member :=
  if existsb (String.eqb "Logging") (i_extends i)
  then i_members Logging ++ i_members i
  else i_members i.

(** The five dialect names. *)
Definition dialects : list string :=
  ["mysql"; "postgres"; "sqlite"; "mariadb"; "mssql"].

(** The value is a plain object. *)
Definition is_object {number : Type} (v : value number) : bool :=
  match v with
  | VObj _ => true
  | _ => false
  end.

(** The first argument of [json]: a string or anything of type [object]. *)
Definition json_path {number : Type} (v : value number) : bool :=
  match v with
  | VStr _ | VArr _ | VObj _ | VFun => true
  | _ => false
  end.

(** The second argument of [json]: a string, a number or a boolean, or
    [undefined] for a value left out. *)
Definition json_value {number : Type} (v : value number) : bool :=
  match v with
  | VStr _ | VNum _ | VBool _ | VUndefined => true
  | _ => false
  end.


(** The property [n] of an object is present and a number. *)
Definition number_at {number : Type} (n : string)
           (fs : list (string * value number)) : bool :=
  match get n fs with
  | Some (VNum _) => true
  | _ => false
  end.

(** The query kinds that have an overload of their own. *)
Definition dedicated_kinds : list string :=
  [ "UPDATE"; "BULKUPDATE"; "INSERT"; "UPSERT"; "DELETE"; "BULKDELETE";
    "SHOWTABLES"; "DESCRIBE"; "SELECT" ].

(** The part of a qualified name before its first dot. *)
Definition root_name (n : string) : string :=
  match String.index 0 "." n with
  | Some i => String.substring 0 i n
  | None => n
  end.

Definition imported_names (f : list item) : list string :=
  flat_map (fun d => match d with
                     | DImport (INamespace a) _ => [a]
                     | DImport (INamed ns) _ => ns
                     | DImport (IRequire a) _ => [a]
                     | _ => []
                     end) f.

Definition declared_names (f : list item) : list string :=
  flat_map (fun d => match d with
                     | DInterface i => [i_name i]
                     | DTypeAlias n _ => [n]
                     | DClass c => [c_name c]
                     | DFunction n _ _ => [n]
                     | _ => []
                     end) f.

(** Types of the standard library that the file uses without import. *)
Definition library_names : list string :=
  ["RegExp"; "Function"; "Date"; "Partial"; "PromiseLike"].

(** The names a signature refers to, its own type parameters apart. *)
Definition sig_free_refs (sg : signature) : list string :=
  filter (fun n => negb (existsb (String.eqb n) (map fst (sig_tparams sg))))
         (sig_refs sg).

Definition cm_free_refs (m : class_member) : list string :=
  match m with
  | CMethod _ _ sg _ => sig_free_refs sg
  | _ => cm_refs m
  end.

(** The top-level names an item refers to. *)
Definition item_refs (d : item) : list string :=
  map root_name
      match d with
      | DInterface i => i_extends i ++ flat_map member_refs (i_members i)
      | DTypeAlias _ t => ty_refs t
      | DClass c =>
          match c_extends c with Some b => [b] | None => [] end ++
          flat_map cm_free_refs (c_members c)
      | DFunction _ sg _ => sig_free_refs sg
      | DExportDefault n => [n]
      | _ => []
      end.

Definition mentioned (l : list string) (n : string) : bool :=
  existsb (String.eqb n) l.

(** *** General facts about the accessors *)

Lemma Forall_of_forallb {A : Type} (f : A -> bool) (l : list A) :
  forallb f l = true -> Forall (fun x => f x = true) l.
Proof.
  intros H. apply Forall_forall. now apply forallb_forall.
Qed.

(** [overloads] returns signatures of instance methods of that name, and
    nothing else. *)
Lemma overloads_sound (n : string) (ms : list class_member) (sg : signature) :
  In sg (overloads n ms) -> exists b, In (CMethod false n sg b) ms.
Proof.
  induction ms as [|m ms IH]; simpl; [tauto|].
  destruct m as [st ro f t|ps b|st n' sg' b]; try (intros H; destruct (IH H) as [b' Hb]; eauto).
  destruct st.
  - intros H. destruct (IH H) as [b' Hb]. eauto.
  - destruct (String.eqb_spec n n') as [->|Hne].
    + intros [->|H]; [eauto|]. destruct (IH H) as [b' Hb]. eauto.
    + intros H. destruct (IH H) as [b' Hb]. eauto.
Qed.

Lemma overloads_complete (n : string) (ms : list class_member)
      (sg : signature) (b : option block) :
  In (CMethod false n sg b) ms -> In sg (overloads n ms).
Proof.
  induction ms as [|m ms IH]; simpl; [tauto|].
  intros [->|H].
  - rewrite String.eqb_refl. now left.
  - specialize (IH H).
    destruct m as [st ro f t|ps b'|[] n' sg' b']; auto.
    destruct (String.eqb n n'); [now right|assumption].
Qed.

(** The overload that [resolve] picks is one of the candidates and it
    accepts the call. *)
Lemma resolve_sound (sgs : list signature) (a : option query_options)
      (sg : signature) :
  resolve sgs a = Some sg -> In sg sgs /\ applicable a sg = true.
Proof.
  unfold resolve. intros H. now apply find_some in H.
Qed.

(** No earlier candidate accepts the call: resolution is first-match. *)
Lemma resolve_first (sgs : list signature) (a : option query_options)
      (sg : signature) :
  resolve sgs a = Some sg ->
  exists pre post,
    sgs = pre ++ sg :: post /\ forallb (fun s => negb (applicable a s)) pre = true.
Proof.
  unfold resolve. induction sgs as [|s sgs IH]; simpl; [discriminate|].
  destruct (applicable a s) eqn:E.
  - intros [= ->]. exists [], sgs. now split.
  - intros H. destruct (IH H) as (pre & post & -> & Hpre).
    exists (s :: pre), post. simpl. rewrite E. now split.
Qed.

Section Admissibility.

Context {number : Type}.
Implicit Types (v : value number) (t : ty).

Lemma admits_union (ts : list ty) v :
  admits (TUnion ts) v = true <-> exists t, In t ts /\ admits t v = true.
Proof.
  simpl. apply existsb_exists.
Qed.



Lemma admits_lit (s : string) v : admits (TLit s) v = true <-> v = VStr s.
Proof.
  split.
  - destruct v; simpl; try discriminate.
    intros H. apply String.eqb_eq in H. now subst.
  - intros ->. simpl. apply String.eqb_refl.
Qed.

End Admissibility.

(** *** The result of [query] *)

Lemma query_fallback_applicable (a : option query_options) :
  applicable a query_fallback = true.
Proof. destruct a as [o|]; reflexivity. Qed.

Lemma query_overloads_eq :
  query_overloads = overloads "query" (c_members Sequelize).
Proof. vm_compute. reflexivity. Qed.

Lemma query_fallback_is_last :
  exists pre, query_overloads = pre ++ [query_fallback].
Proof.
  eexists (firstn 10 query_overloads). vm_compute. reflexivity.
Qed.

Lemma query_overloads_return_promises :
  Forall (fun sg => exists t, sig_ret sg = Promise t) query_overloads.
Proof. unfold query_overloads. repeat constructor; eexists; reflexivity. Qed.

(** Some overload applies to every call. *)
Lemma query_signature_total (a : option query_options) :
  query_signature a <> None.
Proof.
  intros E. unfold query_signature, resolve in E.
  destruct query_fallback_is_last as [pre Hpre].
  assert (In query_fallback query_overloads) as Hin
      by (rewrite Hpre; apply in_or_app; right; now left).
  pose proof (find_none _ _ E query_fallback Hin) as H.
  rewrite query_fallback_applicable in H. discriminate H.
Qed.

(** Whatever the options, the declared result is a promise. *)
Lemma query_always_promise (a : option query_options) :
  exists t, query_result a = Some (Promise t).
Proof.
  unfold query_result.
  destruct (query_signature a) as [sg|] eqn:E.
  - apply resolve_sound in E as [Hin _].
    pose proof query_overloads_return_promises as HF.
    rewrite Forall_forall in HF.
    destruct (HF sg Hin) as [t Ht]. exists t. simpl. now rewrite Ht.
  - now apply query_signature_total in E.
Qed.

(** With [type: DESCRIBE] the result is a dictionary of column
    descriptions. *)
Lemma query_describe (m : bool) :
  query_result (typed "DESCRIBE" m) = Some (Promise describe_result).
Proof. destruct m; vm_compute; reflexivity. Qed.

(** C1, as the declarations have it.  The result of [query] follows the
    query kind in the options: UPDATE gives a promise of the pair
    [[undefined, number]], INSERT of [[number, number]], BULKUPDATE,
    BULKDELETE and UPSERT of a number, DELETE of [void], SHOWTABLES of
    [string[]], SELECT of an array of objects ([T[]] with [T extends
    object], or [M[]] with [M extends Model] when a model is given), and a
    call with no options, or with options that give neither a type nor a
    model, a promise of [unknown[]]: an array of unknown values, with no
    metadata object in the declared type. *)
Theorem query_result_by_kind :
  (forall m, query_result (typed "UPDATE" m)
             = Some (Promise (TTuple [TUndefined; TNumber]))) /\
  (forall m, query_result (typed "INSERT" m)
             = Some (Promise (TTuple [TNumber; TNumber]))) /\
  (forall m, query_result (typed "BULKUPDATE" m) = Some (Promise TNumber)) /\
  (forall m, query_result (typed "BULKDELETE" m) = Some (Promise TNumber)) /\
  (forall m, query_result (typed "UPSERT" m) = Some (Promise TNumber)) /\
  (forall m, query_result (typed "DELETE" m) = Some (Promise TVoid)) /\
  (forall m, query_result (typed "SHOWTABLES" m)
             = Some (Promise (TArray TString))) /\
  query_signature (typed "SELECT" false)
  = Some (Sig [("T", Some TObject)]
              [sql_param; arg "options" (QueryOptionsWithType "SELECT")]
              (Promise (TArray (ref "T")))) /\
  query_signature (typed "SELECT" true)
  = Some (Sig [("M", Some (ref "Model"))]
              [sql_param; arg "options" (ref "QueryOptionsWithModel")]
              (Promise (TArray (ref "M")))) /\
  query_result None = Some (Promise (TArray TUnknown)) /\
  query_result (Some (QO None false)) = Some (Promise (TArray TUnknown)).
Proof.
  repeat split; try (intros []); vm_compute; reflexivity.
Qed.

(** C1 as stated fails for a call without options: the declared result
    is [Promise<unknown[]>], which is not a pair of an array with a
    metadata component, whatever the type of that component. *)
Lemma query_untyped_result_is_not_a_pair :
  query_result None = Some (Promise (TArray TUnknown)) /\
  ~ exists meta : ty,
      query_result None = Some (Promise (TTuple [TArray TUnknown; meta])).
Proof.
  split; [vm_compute; reflexivity|].
  intros [meta H]. vm_compute in H. discriminate H.
Qed.

(** *** Declarations only *)

Lemma no_executable_content : forallb is_declaration sequelize_d_ts = true.
Proof. vm_compute. reflexivity. Qed.

(** C2.  The file holds declarations only: no item is a statement, no
    class member and no function carries a body; what it declares are the
    nine interfaces, the class with its four constructor overloads and
    the signatures for querying, synchronising and transactions. *)
Theorem file_is_declarations_only :
  Forall (fun d => is_declaration d = true) sequelize_d_ts /\
  Forall (fun m => cm_body m = None) (c_members Sequelize) /\
  Forall (fun d => match d with
                   | DFunction _ _ b => b = None
                   | DStatement _ => False
                   | _ => True
                   end) sequelize_d_ts /\
  map i_name (interfaces_of sequelize_d_ts)
  = ["SyncOptions"; "DefaultSetOptions"; "PoolOptions"; "ConnectionOptions";
     "ReplicationOptions"; "Config"; "RetryOptions"; "Options";
     "QueryOptionsTransactionRequired"] /\
  List.length (constructors_of (c_members Sequelize)) = 4 /\
  List.length (overloads "query" (c_members Sequelize)) = 11 /\
  List.length (overloads "sync" (c_members Sequelize)) = 1 /\
  List.length (overloads "transaction" (c_members Sequelize)) = 3.
Proof.
  split; [apply Forall_of_forallb, no_executable_content|].
  split; [unfold Sequelize, c_members; repeat constructor|].
  split; [vm_compute; repeat constructor|].
  repeat split; vm_compute; reflexivity.
Qed.

(** *** Asynchronous results *)

Lemma no_error_names :
  forallb (fun n => negb (names_error n))
          (flat_map item_names sequelize_d_ts) = true.
Proof. vm_compute. reflexivity. Qed.

(** C3.  Each of the fallible operations of the class returns a promise
    in every overload, and the file neither imports, declares nor refers
    to a type that names an error: a failure has no declared shape. *)
Theorem fallible_operations_return_promises :
  Forall asynchronous fallible_operations /\
  Forall (fun n => names_error n = false)
         (flat_map item_names sequelize_d_ts).
Proof.
  split.
  - unfold fallible_operations, asynchronous.
    repeat (apply Forall_cons;
            [split; [discriminate|
                     vm_compute; repeat constructor; eexists; reflexivity]|]).
    apply Forall_nil.
  - apply Forall_forall. intros n Hn.
    pose proof (proj1 (forallb_forall _ _) no_error_names n Hn) as H.
    now apply negb_true_iff in H.
Qed.

(** *** Transactions *)

(** C4.  [transaction] has exactly three overloads, in this order: with
    options and an automatic callback, returning a promise of the
    callback's result type [T]; with the callback alone, returning a
    promise of [T]; and with optional options only, returning a promise of
    a [Transaction]. *)
Theorem transaction_has_three_forms :
  overloads "transaction" (c_members Sequelize)
  = [ Sig [("T", None)]
          [ arg "options" (ref "TransactionOptions");
            arg "autoCallback"
                (TFun [arg "t" (ref "Transaction")]
                      (TRef "PromiseLike" [ref "T"])) ]
          (Promise (ref "T"));
      Sig [("T", None)]
          [ arg "autoCallback"
                (TFun [arg "t" (ref "Transaction")]
                      (TRef "PromiseLike" [ref "T"])) ]
          (Promise (ref "T"));
      Sig []
          [ arg_opt "options" (ref "TransactionOptions") ]
          (Promise (ref "Transaction")) ].
Proof. vm_compute. reflexivity. Qed.

(** *** Configuration shapes *)

(** C5 as stated fails: a configuration interface does declare a method,
    the optional [validate] of [PoolOptions]. *)
Lemma PoolOptions_declares_a_method :
  In PoolOptions configuration_interfaces /\
  method_members (i_members PoolOptions)
  = [MMethod "validate" true [arg_opt "client" TUnknown] TBoolean] /\
  ~ Forall (fun i => method_members (i_members i) = [])
           configuration_interfaces.
Proof.
  split; [simpl; tauto|]. split; [reflexivity|].
  intros H. rewrite Forall_forall in H.
  specialize (H PoolOptions). simpl in H.
  assert (method_members (i_members PoolOptions) = []) as E by (apply H; tauto).
  discriminate E.
Qed.

(** C5, as the declarations have it.  Every member that [Options],
    [PoolOptions], [SyncOptions] and [ConnectionOptions] declare is
    optional; [ReplicationOptions] requires exactly [read], an array of
    [ConnectionOptions], and [write], a single [ConnectionOptions]; and
    the only method an interface of the file declares is the optional
    [validate(client?: unknown): boolean] of [PoolOptions]. *)
Theorem configuration_shapes :
  Forall (fun i => all_optional i = true)
         [Options; PoolOptions; SyncOptions; ConnectionOptions] /\
  i_members ReplicationOptions
  = [ MProp "read" false false (TArray (ref "ConnectionOptions"));
      MProp "write" false false (ref "ConnectionOptions") ] /\
  required_members (i_members ReplicationOptions)
  = i_members ReplicationOptions /\
  flat_map (fun i => map (fun m => (i_name i, m))
                         (method_members (i_members i)))
           (interfaces_of sequelize_d_ts)
  = [ ("PoolOptions",
       MMethod "validate" true [arg_opt "client" TUnknown] TBoolean) ].
Proof.
  split; [repeat constructor|].
  repeat split; vm_compute; reflexivity.
Qed.

(** Whatever members [Logging] has, if they are optional then so are all
    members of an interface that extends it, inherited ones included. *)
Lemma inherited_members_optional (Logging i : interface) :
  all_optional Logging = true ->
  all_optional i = true ->
  forallb member_optional (inherited_members Logging i) = true.
Proof.
  unfold inherited_members, all_optional. intros HL Hi.
  destruct (existsb _ _); [|exact Hi].
  rewrite forallb_app. apply andb_true_iff. now split.
Qed.

(** *** The final configuration *)

(** C6.  The [config] field of the class is a readonly instance field of
    type [Config]; every member of [Config] is readonly, nested shapes
    included; its required members are exactly [database], [username],
    [password], [protocol], [native], [ssl], [replication] and
    [dialectModulePath]; [protocol] admits the string ['tcp'] and nothing
    else; and [password] admits [null]. *)
Theorem Config_is_readonly_and_fixed :
  field_decl "config" (c_members Sequelize) = Some (false, true, ref "Config") /\
  forallb member_readonly (i_members Config) = true /\
  map member_name (required_members (i_members Config))
  = [ "database"; "username"; "password"; "protocol"; "native"; "ssl";
      "replication"; "dialectModulePath" ] /\
  (forall (number : Type) (v : value number),
      field_admits Config "protocol" v = true <-> v = VStr "tcp") /\
  (forall number : Type,
      field_admits Config "password" (@VNull number) = true).
Proof.
  split; [vm_compute; reflexivity|].
  split; [vm_compute; reflexivity|].
  split; [vm_compute; reflexivity|].
  split.
  - intros number v.
    change (field_admits Config "protocol" v) with (admits (TLit "tcp") v).
    apply admits_lit.
  - intros number. reflexivity.
Qed.

(** *** Dialects *)

(** C7.  A value is admitted by [Dialect] exactly when it is one of the
    strings mysql, postgres, sqlite, mariadb and mssql, and [getDialect]
    is declared once, without parameters, returning [string]. *)
Theorem Dialect_values :
  (forall (number : Type) (v : value number),
      admits Dialect v = true <-> exists s, v = VStr s /\ In s dialects) /\
  overloads "getDialect" (c_members Sequelize) = [Sig [] [] TString].
Proof.
  split; [|vm_compute; reflexivity].
  intros number v. unfold Dialect. rewrite admits_union. split.
  - intros (t & Hin & Ht). simpl in Hin.
    repeat (destruct Hin as [<-|Hin];
            [apply admits_lit in Ht; subst v; eexists; split;
             [reflexivity|simpl; tauto]|]).
    contradiction.
  - intros (s & -> & Hin). exists (TLit s). split.
    + simpl in Hin. simpl.
      repeat (destruct Hin as [<-|Hin]; [tauto|]). contradiction.
    + now apply admits_lit.
Qed.

(** *** The pool *)

(** C8.  Nothing in the file is executable, so nothing in it schedules,
    locks or owns a resource; the pool knobs [max], [min], [idle] and
    [acquire] are optional properties of type [number]. *)
Theorem pool_knobs_are_passive :
  forallb is_declaration sequelize_d_ts = true /\
  Forall (fun n => find_member n (i_members PoolOptions)
                   = Some (MProp n false true TNumber))
         ["max"; "min"; "idle"; "acquire"].
Proof.
  split; [exact no_executable_content|].
  repeat constructor.
Qed.

(** *** [validate] and [authenticate] *)

(** C9.  [validate] and [authenticate] are each declared once, with the
    same signature [(options?: QueryOptions) => Promise<void>]. *)
Theorem validate_same_as_authenticate :
  overloads "validate" (c_members Sequelize)
  = overloads "authenticate" (c_members Sequelize) /\
  overloads "authenticate" (c_members Sequelize)
  = [Sig [] [arg_opt "options" (ref "QueryOptions")] (Promise TVoid)].
Proof. split; vm_compute; reflexivity. Qed.

(** *** Ports *)


(** ** Named types and calls *)

Import Named Call File.

(** *** Induction on type expressions *)

Section TyInduction.

Variable P : ty -> Prop.
Variable Q : member -> Prop.

Hypothesis P_string : P TString.
Hypothesis P_number : P TNumber.
Hypothesis P_boolean : P TBoolean.
Hypothesis P_object : P TObject.
Hypothesis P_unknown : P TUnknown.
Hypothesis P_void : P TVoid.
Hypothesis P_undefined : P TUndefined.
Hypothesis P_null : P TNull.
Hypothesis P_this : P TThis.
Hypothesis P_lit : forall s, P (TLit s).
Hypothesis P_ref : forall n args, P (TRef n args).
Hypothesis P_typeof : forall n, P (TTypeof n).
Hypothesis P_array : forall e, P e -> P (TArray e).
Hypothesis P_tuple : forall ts, Forall P ts -> P (TTuple ts).
Hypothesis P_union : forall ts, Forall P ts -> P (TUnion ts).
Hypothesis P_shape : forall ms, Forall Q ms -> P (TShape ms).
Hypothesis P_fun : forall ps r, P (TFun ps r).
Hypothesis Q_prop : forall n ro o t, P t -> Q (MProp n ro o t).
Hypothesis Q_method : forall n o ps r, Q (MMethod n o ps r).
Hypothesis Q_index : forall k kt t, P t -> Q (MIndex k kt t).

Fixpoint ty_nested_ind (t : ty) : P t :=
  match t with
  | TString => P_string
  | TNumber => P_number
  | TBoolean => P_boolean
  | TObject => P_object
  | TUnknown => P_unknown
  | TVoid => P_void
  | TUndefined => P_undefined
  | TNull => P_null
  | TThis => P_this
  | TLit s => P_lit s
  | TRef n args => P_ref n args
  | TTypeof n => P_typeof n
  | TArray e => P_array e (ty_nested_ind e)
  | TTuple ts =>
      P_tuple ts
        ((fix all (l : list ty) : Forall P l :=
            match l with
            | [] => Forall_nil P
            | x :: l' => Forall_cons x (ty_nested_ind x) (all l')
            end) ts)
  | TUnion ts =>
      P_union ts
        ((fix all (l : list ty) : Forall P l :=
            match l with
            | [] => Forall_nil P
            | x :: l' => Forall_cons x (ty_nested_ind x) (all l')
            end) ts)
  | TShape ms =>
      P_shape ms
        ((fix all (l : list member) : Forall Q l :=
            match l with
            | [] => Forall_nil Q
            | x :: l' => Forall_cons x (member_nested_ind x) (all l')
            end) ms)
  | TFun ps r => P_fun ps r
  end
with member_nested_ind (m : member) : Q m :=
  match m with
  | MProp n ro o t => Q_prop n ro o t (ty_nested_ind t)
  | MMethod n o ps r => Q_method n o ps r
  | MIndex k kt t => Q_index k kt t (ty_nested_ind t)
  end.

End TyInduction.

Lemma forallb_pointwise {A : Type} (f g : A -> bool) (l : list A) :
  Forall (fun x => f x = g x) l -> forallb f l = forallb g l.
Proof.
  induction 1 as [|x l Hx _ IH]; simpl; [reflexivity|]. now rewrite Hx, IH.
Qed.

Lemma existsb_pointwise {A : Type} (f g : A -> bool) (l : list A) :
  Forall (fun x => f x = g x) l -> existsb f l = existsb g l.
Proof.
  induction 1 as [|x l Hx _ IH]; simpl; [reflexivity|]. now rewrite Hx, IH.
Qed.

Section NamedFacts.

Context {number : Type}.
Variable ext : string -> list ty -> value number -> bool.
Variable file : list item.
Variable rec : ty -> value number -> bool.

(** On a reference-free type the resolving semantics is the plain one,
    whatever the file, the imported names and the fuel. *)
Lemma admits_step_ref_free (t : ty) :
  ref_free t = true ->
  forall v, admits_step ext file rec t v = admits t v.
Proof.
  induction t using ty_nested_ind
    with (Q := fun m => member_ref_free m = true ->
                        forall fs, member_step ext file rec m fs
                                   = member_admits m fs);
    simpl; try discriminate; try reflexivity.
  - intros Ht [] ; try reflexivity.
    apply forallb_pointwise, Forall_forall. intros x _. now apply IHt.
  - intros Hts [] ; try reflexivity.
    revert Hts vs.
    induction H as [|t ts Ht _ IH]; intros Hts [|v vs]; try reflexivity.
    simpl in Hts. apply andb_true_iff in Hts as [H1 H2].
    rewrite (Ht H1 v). f_equal. now apply IH.
  - intros Hts v. apply existsb_pointwise.
    rewrite Forall_forall in H |- *. intros x Hx. apply H; [exact Hx|].
    now apply (proj1 (forallb_forall _ _) Hts).
  - intros Hms [] ; try reflexivity.
    apply forallb_pointwise.
    rewrite Forall_forall in H |- *. intros x Hx. apply H; [exact Hx|].
    now apply (proj1 (forallb_forall _ _) Hms).
  - intros Ht fs. destruct (get n fs); [now apply IHt|reflexivity].
  - intros Ht fs. apply forallb_pointwise, Forall_forall.
    intros x _. auto.
Qed.

Lemma admits_in_ref (f : nat) (n : string) (args : list ty)
      (v : value number) :
  admits_in ext file (S f) (TRef n args) v
  = match lookup n file with
    | Some (exts, body) =>
        admits_in ext file f body v
        && forallb (fun e => admits_in ext file f (TRef e []) v) exts
    | None => ext n args v
    end.
Proof. reflexivity. Qed.

End NamedFacts.

(** *** Resolution in the file *)

Lemma lookup_interfaces :
  lookup "SyncOptions" sequelize_d_ts
  = Some (["Logging"], TShape (i_members SyncOptions)) /\
  lookup "DefaultSetOptions" sequelize_d_ts = Some ([], TShape []) /\
  lookup "PoolOptions" sequelize_d_ts
  = Some ([], TShape (i_members PoolOptions)) /\
  lookup "ConnectionOptions" sequelize_d_ts
  = Some ([], TShape (i_members ConnectionOptions)) /\
  lookup "ReplicationOptions" sequelize_d_ts
  = Some ([], TShape (i_members ReplicationOptions)) /\
  lookup "Config" sequelize_d_ts = Some ([], TShape (i_members Config)) /\
  lookup "RetryOptions" sequelize_d_ts
  = Some ([], TShape (i_members RetryOptions)) /\
  lookup "Options" sequelize_d_ts
  = Some (["Logging"], TShape (i_members Options)) /\
  lookup "QueryOptionsTransactionRequired" sequelize_d_ts
  = Some ([], TShape []).
Proof. repeat split; vm_compute; reflexivity. Qed.

Lemma lookup_aliases :
  lookup "Dialect" sequelize_d_ts = Some ([], Dialect) /\
  lookup "AttributeType" sequelize_d_ts = Some ([], AttributeType) /\
  lookup "LogicType" sequelize_d_ts = Some ([], LogicType).
Proof. repeat split; vm_compute; reflexivity. Qed.

(** Names the file uses and does not declare as interface or alias. *)
Lemma lookup_imported :
  Forall (fun n => lookup n sequelize_d_ts = None)
         [ "Logging"; "TransactionOptions"; "Transaction"; "RegExp";
           "Function"; "Date"; "Fn"; "Col"; "Literal"; "Where";
           "OrOperator"; "AndOperator"; "WhereOperators";
           "WhereAttributeHash"; "ModelAttributeColumnOptions" ].
Proof. repeat constructor. Qed.

Section FileFacts.

Context {number : Type}.
Variable ext : string -> list ty -> value number -> bool.
Variable k : nat.

Local Abbreviation env_admits := (admits_in ext sequelize_d_ts).

Lemma admits_in_declared (f : nat) (n : string) (args : list ty)
      (exts : list string) (body : ty) (v : value number) :
  lookup n sequelize_d_ts = Some (exts, body) ->
  env_admits (S f) (TRef n args) v
  = env_admits f body v && forallb (fun e => env_admits f (TRef e []) v) exts.
Proof. intros H. rewrite admits_in_ref. now rewrite H. Qed.

Lemma admits_in_imported (f : nat) (n : string) (args : list ty)
      (v : value number) :
  lookup n sequelize_d_ts = None ->
  env_admits (S f) (TRef n args) v = ext n args v.
Proof. intros H. rewrite admits_in_ref. now rewrite H. Qed.

Lemma admits_in_ref_free (f : nat) (t : ty) (v : value number) :
  ref_free t = true -> env_admits (S f) t v = admits t v.
Proof. intros H. now apply admits_step_ref_free. Qed.

Lemma admits_at_ref_free (t : ty) (v : value number) :
  ref_free t = true -> admits_at ext k t v = admits t v.
Proof. apply admits_in_ref_free. Qed.

(** A shape admits objects only. *)
Lemma admits_in_shape (f : nat) (ms : list member) (v : value number) :
  env_admits (S f) (TShape ms) v
  = match v with
    | VObj fs =>
        forallb (fun m => member_step ext sequelize_d_ts (env_admits f) m fs)
                ms
    | _ => false
    end.
Proof. reflexivity. Qed.

(** When all members are optional, the empty object is admitted. *)
Lemma shape_admits_empty_object (f : nat) (ms : list member) :
  forallb member_optional ms = true ->
  env_admits (S f) (TShape ms) (VObj []) = true.
Proof.
  rewrite admits_in_shape.
  induction ms as [|m ms IH]; simpl; [reflexivity|].
  intros H. apply andb_true_iff in H as [Hm Hms].
  rewrite (IH Hms), andb_true_r.
  destruct m; simpl in *; assumption || reflexivity.
Qed.

(** When a required member is missing, the object is rejected. *)
Lemma shape_rejects_missing (f : nat) (ms : list member)
      (fs : list (string * value number)) (n : string) (ro : bool) (t : ty) :
  In (MProp n ro false t) ms -> get n fs = None ->
  env_admits (S f) (TShape ms) (VObj fs) = false.
Proof.
  intros Hin Hget. rewrite admits_in_shape.
  apply not_true_is_false. intros H.
  rewrite forallb_forall in H. specialize (H _ Hin).
  simpl in H. rewrite Hget in H. discriminate H.
Qed.

End FileFacts.

(** *** Edge cases of the configuration shapes *)

Ltac open_ref L :=
  unfold admits_at, ref; change (4 + ?k) with (S (3 + k));
  rewrite (admits_in_declared _ _ _ _ _ _ _ L); cbn [forallb];
  change (3 + ?k) with (S (2 + k)).

(** X1.  The empty object [{}] is admitted by the interfaces whose
    members are all optional and that extend nothing ([PoolOptions],
    [ConnectionOptions], [RetryOptions] and the two empty interfaces);
    by [Options] and [SyncOptions] exactly when the imported [Logging]
    admits it; and never by [Config] or [ReplicationOptions], which have
    required members. *)
Theorem empty_object_admission
        (number : Type) (ext : string -> list ty -> value number -> bool)
        (k : nat) :
  Forall (fun n => admits_at ext k (ref n) (VObj []) = true)
         [ "PoolOptions"; "ConnectionOptions"; "RetryOptions";
           "DefaultSetOptions"; "QueryOptionsTransactionRequired" ] /\
  Forall (fun n => admits_at ext k (ref n) (VObj [])
                   = ext "Logging" [] (VObj []))
         [ "Options"; "SyncOptions" ] /\
  Forall (fun n => admits_at ext k (ref n) (VObj []) = false)
         [ "Config"; "ReplicationOptions" ].
Proof.
  destruct lookup_interfaces
    as (LSync & LSet & LPool & LConn & LRepl & LConf & LRetry & LOpt & LReq).
  assert (lookup "Logging" sequelize_d_ts = None) as LLog
      by (vm_compute; reflexivity).
  split; [|split].
  - repeat apply Forall_cons; try apply Forall_nil.
    + open_ref LPool. now rewrite shape_admits_empty_object.
    + open_ref LConn. now rewrite shape_admits_empty_object.
    + open_ref LRetry. now rewrite shape_admits_empty_object.
    + open_ref LSet. now rewrite shape_admits_empty_object.
    + open_ref LReq. now rewrite shape_admits_empty_object.
  - repeat apply Forall_cons; try apply Forall_nil.
    + open_ref LOpt. rewrite shape_admits_empty_object by reflexivity.
      now rewrite (admits_in_imported _ _ _ _ _ LLog), andb_true_r.
    + open_ref LSync. rewrite shape_admits_empty_object by reflexivity.
      now rewrite (admits_in_imported _ _ _ _ _ LLog), andb_true_r.
  - repeat apply Forall_cons; try apply Forall_nil.
    + open_ref LConf.
      rewrite (shape_rejects_missing _ _ _ _ "database" true TString);
        [reflexivity|simpl; tauto|reflexivity].
    + open_ref LRepl.
      rewrite (shape_rejects_missing _ _ _ _ "write" false
                                     (ref "ConnectionOptions"));
        [reflexivity|simpl; tauto|reflexivity].
Qed.

(** Replace a closed table lookup by its value. *)
Ltac tabulate c :=
  let l := eval vm_compute in c in
  replace c with l by (vm_compute; reflexivity).

Ltac tabulate_goal :=
  unfold method_for, function_for, constructor_for;
  repeat match goal with
         | |- context [overloads ?n ?ms] => tabulate (overloads n ms)
         | |- context [constructors_of ?ms] => tabulate (constructors_of ms)
         | |- context [functions_named ?n ?f] => tabulate (functions_named n f)
         end.

(** X2.  The two empty interfaces admit every object.  So the options of
    [set], typed [QueryOptionsTransactionRequired], need not carry a
    transaction for the call to be accepted; they cannot be left out,
    though, since the parameter is not optional. *)
Theorem set_options_need_no_transaction
        (number : Type) (ext : string -> list ty -> value number -> bool)
        (k : nat) :
  (forall fs, admits_at ext k (ref "QueryOptionsTransactionRequired")
                        (VObj fs) = true) /\
  (forall fs, admits_at ext k (ref "DefaultSetOptions") (VObj fs) = true) /\
  (forall vs fs,
      method_for ext k "set" [VObj vs; VObj fs]
      = Some (Sig [] [ arg "variables" TObject;
                       arg "options" (ref "QueryOptionsTransactionRequired") ]
                  (Promise TUnknown))) /\
  (forall vs, method_for ext k "set" [VObj vs] = None) /\
  method_for ext k "set" [] = None.
Proof.
  destruct lookup_interfaces
    as (LSync & LSet & LPool & LConn & LRepl & LConf & LRetry & LOpt & LReq).
  assert (forall fs, admits_at ext k (ref "QueryOptionsTransactionRequired")
                               (VObj fs) = true) as HReq
      by (intros fs; open_ref LReq; reflexivity).
  split; [exact HReq|].
  split; [intros fs; open_ref LSet; reflexivity|].
  split; [|split].
  - intros vs fs. tabulate_goal. unfold select.
    cbn [find sig_params args_accepted].
    change (TRef "QueryOptionsTransactionRequired" [])
      with (ref "QueryOptionsTransactionRequired").
    rewrite HReq, admits_at_ref_free by reflexivity. reflexivity.
  - intros vs. tabulate_goal. unfold select.
    cbn [find sig_params args_accepted].
    rewrite admits_at_ref_free by reflexivity. reflexivity.
  - tabulate_goal. reflexivity.
Qed.

(** *** Constructor calls *)

(** An interface of the file admits objects only. *)
Lemma interface_admits_objects_only
      (number : Type) (ext : string -> list ty -> value number -> bool)
      (k : nat) (n : string) (args : list ty) (exts : list string)
      (ms : list member) (v : value number) :
  lookup n sequelize_d_ts = Some (exts, TShape ms) ->
  is_object v = false ->
  admits_at ext k (TRef n args) v = false.
Proof.
  intros L Hv. unfold admits_at. change (4 + k) with (S (S (2 + k))).
  rewrite (admits_in_declared _ _ _ _ _ _ _ L), admits_in_shape.
  destruct v; try reflexivity. discriminate Hv.
Qed.

Lemma Options_admits_objects_only
      (number : Type) (ext : string -> list ty -> value number -> bool)
      (k : nat) (v : value number) :
  is_object v = false -> admits_at ext k (TRef "Options" []) v = false.
Proof.
  apply (interface_admits_objects_only _ _ _ _ _ ["Logging"]
           (i_members Options)).
  vm_compute. reflexivity.
Qed.

Lemma admits_at_imported
      (number : Type) (ext : string -> list ty -> value number -> bool)
      (k : nat) (n : string) (args : list ty) (v : value number) :
  lookup n sequelize_d_ts = None ->
  admits_at ext k (TRef n args) v = ext n args v.
Proof. apply admits_in_imported. Qed.

Ltac settle_call :=
  tabulate_goal; unfold select, select_ctor;
  cbn [find sig_params args_accepted is_undefined];
  repeat match goal with
         | |- context [admits_at ?e ?k ?t ?v] =>
             rewrite (admits_at_ref_free e k t v) by reflexivity
         | |- context [admits_at ?e ?k (TRef "Options" []) ?v] =>
             rewrite (Options_admits_objects_only _ e k v) by reflexivity
         | |- context [admits_at ?e ?k (TRef ?n ?args) ?v] =>
             rewrite (admits_at_imported _ e k n args v)
               by (vm_compute; reflexivity)
         end;
  cbn [admits andb orb];
  rewrite ?andb_false_r, ?orb_false_r, ?andb_true_r;
  repeat match goal with
         | |- context [admits_at ?e ?k ?t ?v] =>
             destruct (admits_at e k t v)
         | e : string -> list ty -> value _ -> bool
           |- context [?e' ?n ?args ?v] =>
             constr_eq e e'; destruct (e n args v)
         end;
  cbn [andb orb].

(** X3.  How [new Sequelize(...)] reads its arguments.  No argument
    selects the options overload; a single string is a URI; two strings
    are database and user name, a third one the password; a trailing
    object selects an overload exactly when [Options] admits it. *)
Theorem constructor_selection
        (number : Type) (ext : string -> list ty -> value number -> bool)
        (k : nat) (d u p : string) (fs : list (string * value number)) :
  let database := arg "database" TString in
  let username := arg "username" TString in
  let options := arg_opt "options" (ref "Options") in
  let if_options (c : list param) :=
    if admits_at ext k (ref "Options") (VObj fs) then Some c else None in
  constructor_for ext k [] = Some [options] /\
  constructor_for ext k [VStr d] = Some [arg "uri" TString; options] /\
  constructor_for ext k [VStr d; VStr u]
  = Some [database; username; arg_opt "password" TString; options] /\
  constructor_for ext k [VStr d; VStr u; VStr p]
  = Some [database; username; arg_opt "password" TString; options] /\
  constructor_for ext k [VObj fs] = if_options [options] /\
  constructor_for ext k [VStr d; VObj fs]
  = if_options [arg "uri" TString; options] /\
  constructor_for ext k [VStr d; VStr u; VObj fs]
  = if_options [database; username; options] /\
  constructor_for ext k [VStr d; VStr u; VStr p; VObj fs]
  = if_options [database; username; arg_opt "password" TString; options].
Proof.
  cbv zeta. unfold ref.
  repeat split; settle_call; reflexivity.
Qed.

(** X4.  Under strict null checks no constructor overload takes [null]
    for the password, with or without options after it; to pass options
    without a password, [undefined] stands in its place.  No overload
    takes more than four arguments. *)
Theorem constructor_null_password
        (number : Type) (ext : string -> list ty -> value number -> bool)
        (k : nat) (d u : string) :
  constructor_for ext k [VStr d; VStr u; VNull] = None /\
  (forall o, constructor_for ext k [VStr d; VStr u; VNull; o] = None) /\
  (forall fs,
      constructor_for ext k [VStr d; VStr u; VUndefined; VObj fs]
      = if admits_at ext k (ref "Options") (VObj fs)
        then Some [ arg "database" TString; arg "username" TString;
                    arg_opt "password" TString;
                    arg_opt "options" (ref "Options") ]
        else None) /\
  (forall a b c e f rest,
      constructor_for ext k (a :: b :: c :: e :: f :: rest) = None).
Proof.
  unfold ref. repeat split; intros; settle_call; reflexivity.
Qed.

(** *** Method and function calls *)


Lemma admits_in_union
      (number : Type) (ext : string -> list ty -> value number -> bool)
      (file : list item) (f : nat) (ts : list ty) (v : value number) :
  admits_in ext file (S f) (TUnion ts) v
  = existsb (fun t => admits_in ext file (S f) t v) ts.
Proof. reflexivity. Qed.

Lemma admits_in_array
      (number : Type) (ext : string -> list ty -> value number -> bool)
      (file : list item) (f : nat) (e : ty) (vs : list (value number)) :
  admits_in ext file (S f) (TArray e) (VArr vs)
  = forallb (admits_in ext file (S f) e) vs.
Proof. reflexivity. Qed.

(** The aliases [AttributeType] and [LogicType] both admit strings. *)
Lemma aliases_admit_strings
      (number : Type) (ext : string -> list ty -> value number -> bool)
      (k : nat) (s : string) :
  admits_at ext k (TRef "AttributeType" []) (VStr s) = true /\
  admits_at ext k (TRef "LogicType" []) (VStr s) = true.
Proof.
  destruct lookup_aliases as (_ & LA & LL).
  split.
  - unfold admits_at. change (4 + k) with (S (S (2 + k))).
    rewrite (admits_in_declared _ _ _ _ _ _ _ LA). cbn [forallb].
    rewrite andb_true_r. unfold AttributeType. rewrite admits_in_union.
    apply existsb_exists. exists TString. split; [simpl; tauto|reflexivity].
  - unfold admits_at. change (4 + k) with (S (S (2 + k))).
    rewrite (admits_in_declared _ _ _ _ _ _ _ LL). cbn [forallb].
    rewrite andb_true_r. unfold LogicType. rewrite admits_in_union.
    apply existsb_exists. exists TString. split; [simpl; tauto|reflexivity].
Qed.

Ltac expose_call :=
  tabulate_goal; unfold select, select_ctor;
  cbn [find sig_params args_accepted is_undefined].

(** X6.  The two forms of [where] are told apart by the number of
    arguments: three select the form with a comparator, which must be a
    string; two select the form without; any other number is rejected.
    Strings are accepted as attribute and as logic. *)
Theorem where_selection
        (number : Type) (ext : string -> list ty -> value number -> bool)
        (k : nat) :
  let attr := arg "attr" (ref "AttributeType") in
  let logic := arg "logic" (ref "LogicType") in
  (forall a c l : string,
      function_for ext k "where" [VStr a; VStr c; VStr l]
      = Some (Sig [] [attr; arg "comparator" TString; logic] (ref "Where"))) /\
  (forall a l : string,
      function_for ext k "where" [VStr a; VStr l]
      = Some (Sig [] [attr; logic] (ref "Where"))) /\
  (forall x n y, function_for ext k "where" [x; VNum n; y] = None) /\
  (forall x fs y, function_for ext k "where" [x; VObj fs; y] = None) /\
  function_for ext k "where" [] = None /\
  (forall x, function_for ext k "where" [x] = None) /\
  (forall a b c d rest,
      function_for ext k "where" (a :: b :: c :: d :: rest) = None).
Proof.
  cbv zeta.
  repeat split; intros; expose_call;
    rewrite ?(proj1 (aliases_admit_strings _ ext k _)),
            ?(proj2 (aliases_admit_strings _ ext k _));
    settle_call; reflexivity.
Qed.

Lemma admits_unknown_array (number : Type) (vs : list (value number)) :
  admits (TArray TUnknown) (VArr vs) = true.
Proof. simpl. induction vs as [|v vs IH]; simpl; [reflexivity|exact IH]. Qed.

(** X7.  The argument lists that the plain utilities accept.  [fn] takes
    a string and then any number of further arguments of any kind; [col]
    and [literal] take exactly one string; [cast] takes any value and
    then a string. *)
Theorem utility_arguments
        (number : Type) (ext : string -> list ty -> value number -> bool)
        (k : nat) (args : list (value number)) :
  function_for ext k "fn" args
  = match args with
    | VStr _ :: _ =>
        Some (Sig [] [arg "fn" TString; arg_rest "args" (TArray TUnknown)]
                  (ref "Fn"))
    | _ => None
    end /\
  function_for ext k "col" args
  = match args with
    | [VStr _] => Some (Sig [] [arg "col" TString] (ref "Col"))
    | _ => None
    end /\
  function_for ext k "literal" args
  = match args with
    | [VStr _] => Some (Sig [] [arg "val" TString] (ref "Literal"))
    | _ => None
    end /\
  function_for ext k "cast" args
  = match args with
    | [_; VStr _] =>
        Some (Sig [] [arg "val" TUnknown; arg "type" TString] (ref "Cast"))
    | _ => None
    end.
Proof.
  repeat split.
  - destruct args as [|[] rest]; expose_call;
      rewrite ?admits_at_ref_free by reflexivity;
      rewrite ?admits_unknown_array; reflexivity.
  - destruct args as [|[] [|b rest]]; settle_call; reflexivity.
  - destruct args as [|[] [|b rest]]; settle_call; reflexivity.
  - destruct args as [|a [|[] [|c rest]]]; settle_call; reflexivity.
Qed.

(** X8.  [json] takes a path that is a string or an object and,
    optionally, a value that is a string, a number or a boolean: [null]
    and objects are rejected as value, numbers as path. *)
Theorem json_arguments
        (number : Type) (ext : string -> list ty -> value number -> bool)
        (k : nat) (args : list (value number)) :
  function_for ext k "json" args
  = if match args with
       | [p] => json_path p
       | [p; v] => json_path p && json_value v
       | _ => false
       end
    then Some (Sig [] [ arg "conditionsOrPath" (TUnion [TString; TObject]);
                        arg_opt "value"
                                (TUnion [TString; TNumber; TBoolean]) ]
                   (ref "Json"))
    else None.
Proof.
  destruct args as [|p [|v [|c rest]]]; settle_call; try reflexivity.
  - destruct p; reflexivity.
  - destruct p, v; reflexivity.
Qed.

(** X9.  [and] and [or] take any number of conditions, none included;
    each must be admitted by one of the imported types [WhereOperators],
    [WhereAttributeHash] and [Where]. *)
Theorem and_or_arguments
        (number : Type) (ext : string -> list ty -> value number -> bool)
        (k : nat) (args : list (value number)) :
  let condition (v : value number) :=
    ext "WhereOperators" [] v || ext "WhereAttributeHash" [] v
    || ext "Where" [] v in
  function_for ext k "and" args
  = (if forallb condition args
     then Some (Sig [] [arg_rest "args" where_args] (ref "AndOperator"))
     else None) /\
  function_for ext k "or" args
  = (if forallb condition args
     then Some (Sig [] [arg_rest "args" where_args] (ref "OrOperator"))
     else None) /\
  function_for ext k "and" [] <> None /\
  function_for ext k "or" [] <> None.
Proof.
  cbv zeta.
  assert (forall vs : list (value number),
             admits_at ext k where_args (VArr vs)
             = forallb (fun v => ext "WhereOperators" [] v
                                 || ext "WhereAttributeHash" [] v
                                 || ext "Where" [] v) vs) as H.
  { intros vs. unfold admits_at, where_args. change (4 + k) with (S (3 + k)).
    rewrite admits_in_array. apply forallb_pointwise, Forall_forall.
    intros v _. rewrite admits_in_union. unfold ref. cbn [existsb].
    rewrite !admits_in_imported by (vm_compute; reflexivity).
    now rewrite orb_false_r, orb_assoc. }
  repeat split.
  - expose_call. change (TArray _) with where_args. rewrite H.
    destruct (forallb _ args); reflexivity.
  - expose_call. change (TArray _) with where_args. rewrite H.
    destruct (forallb _ args); reflexivity.
  - expose_call. change (TArray _) with where_args. rewrite H. discriminate.
  - expose_call. change (TArray _) with where_args. rewrite H. discriminate.
Qed.

(** *** Options against the final configuration *)

Ltac expose_fields :=
  unfold field_admits_at in *;
  repeat match goal with
         | |- context [prop_type ?n ?ms] => tabulate (prop_type n ms)
         | H : context [prop_type ?n ?ms] |- _ =>
             let l := eval vm_compute in (prop_type n ms) in
             replace (prop_type n ms) with l in H by (vm_compute; reflexivity)
         end;
  cbv beta iota in *;
  repeat match goal with
         | |- context [admits_at ?e ?k ?t ?v] =>
             rewrite (admits_at_ref_free e k t v) by reflexivity
         | H : context [admits_at ?e ?k ?t ?v] |- _ =>
             rewrite (admits_at_ref_free e k t v) in H by reflexivity
         end.


Lemma admits_at_PoolOptions
      (number : Type) (ext : string -> list ty -> value number -> bool)
      (k : nat) (v : value number) :
  admits_at ext k (TRef "PoolOptions" []) v
  = admits (TShape (i_members PoolOptions)) v.
Proof.
  destruct lookup_interfaces as (_ & _ & LPool & _).
  open_ref LPool. rewrite andb_true_r.
  now rewrite admits_in_ref_free.
Qed.

(** X11.  The pool of the final configuration is stricter than the pool
    options: an object is admitted there exactly when it holds all four
    knobs as numbers, where the options admit the empty object; and
    neither side admits anything but an object. *)
Theorem pool_against_config
        (number : Type) (ext : string -> list ty -> value number -> bool)
        (k : nat) (fs : list (string * value number)) :
  let at_options := field_admits_at ext k Options "pool" in
  let at_config := field_admits_at ext k Config "pool" in
  at_config (VObj fs)
  = number_at "acquire" fs && number_at "idle" fs && number_at "max" fs
    && number_at "min" fs /\
  at_options (VObj []) = true /\
  at_config (VObj []) = false /\
  (forall s, at_options (VStr s) = false /\ at_config (VStr s) = false) /\
  (forall n, at_options (VNum n) = false /\ at_config (VNum n) = false) /\
  (forall b, at_options (VBool b) = false /\ at_config (VBool b) = false).
Proof.
  cbv zeta.
  split.
  { expose_fields. unfold number_at. simpl.
    destruct (get "acquire" fs) as [[]|]; try reflexivity;
    destruct (get "idle" fs) as [[]|]; try reflexivity;
    destruct (get "max" fs) as [[]|]; try reflexivity;
    destruct (get "min" fs) as [[]|]; reflexivity. }
  split; [expose_fields; rewrite admits_at_PoolOptions; reflexivity|].
  split; [expose_fields; reflexivity|].
  repeat split; expose_fields; rewrite ?admits_at_PoolOptions; reflexivity.
Qed.



(** *** Replication *)

(** X13.  An object is admitted as [ReplicationOptions] exactly when it
    holds an array under [read], each element admitted as
    [ConnectionOptions], and a value under [write] admitted as
    [ConnectionOptions]; no imported type is involved.  The list of read
    replicas may be empty, and a replica may be the empty object. *)
Theorem replication_options_admission
        (number : Type) (ext : string -> list ty -> value number -> bool)
        (k : nat) (fs : list (string * value number)) :
  let connection := admits (TShape (i_members ConnectionOptions)) in
  admits_at ext k (ref "ReplicationOptions") (VObj fs)
  = match get "read" fs, get "write" fs with
    | Some (VArr rs), Some w => forallb connection rs && connection w
    | _, _ => false
    end /\
  admits_at ext k (ref "ReplicationOptions")
            (VObj [("read", VArr []); ("write", VObj [])]) = true /\
  (forall h n : string,
      connection (VObj [("host", VStr h); ("port", VStr n)]) = true) /\
  (forall (h : string) (n : number),
      connection (VObj [("host", VStr h); ("port", VNum n)]) = true) /\
  (forall h : string,
      connection (VObj [("host", VStr h); ("port", VNull)]) = false).
Proof.
  cbv zeta.
  assert (forall gs,
             admits_at ext k (ref "ReplicationOptions") (VObj gs)
             = match get "read" gs, get "write" gs with
               | Some (VArr rs), Some w =>
                   forallb (admits (TShape (i_members ConnectionOptions))) rs
                   && admits (TShape (i_members ConnectionOptions)) w
               | _, _ => false
               end) as E.
  { intros gs.
    destruct lookup_interfaces as (_ & _ & _ & LConn & LRepl & _).
    assert (forall v,
               admits_in ext sequelize_d_ts (S (S k))
                         (TShape (i_members ConnectionOptions)) v && true
               = admits (TShape (i_members ConnectionOptions)) v) as EC
        by (intros v; now rewrite andb_true_r, admits_in_ref_free).
    open_ref LRepl. rewrite andb_true_r, admits_in_shape.
    unfold ReplicationOptions, i_members, req, ref.
    cbn [forallb member_step]. change (2 + k) with (S (S k)).
    destruct (get "read" gs) as [r|]; [|reflexivity].
    destruct (get "write" gs) as [w|].
    - rewrite andb_true_r. cbn [admits_step]. rewrite LConn.
      cbn [forallb]. rewrite EC.
      destruct r; try reflexivity. f_equal.
      apply forallb_pointwise, Forall_forall. intros x _. apply EC.
    - cbn [andb]. now rewrite andb_false_r; destruct r. }
  split; [apply E|].
  split; [rewrite E; reflexivity|].
  repeat split; intros; reflexivity.
Qed.

(** *** More on [query] *)

Lemma eqb_common_prefix (p a b : string) :
  String.eqb (p ++ a) (p ++ b) = String.eqb a b.
Proof.
  induction p as [|c p IH]; simpl; [reflexivity|].
  now rewrite Ascii.eqb_refl.
Qed.

Ltac decide_closed_tests :=
  repeat match goal with
         | |- context [String.eqb ?a ?b] =>
             let r := eval vm_compute in (String.eqb a b) in
             lazymatch r with
             | true => change (String.eqb a b) with true
             | false => change (String.eqb a b) with false
             end
         end.

(** X14.  A query kind without an overload of its own, [RAW] among them,
    falls through to the general overloads: the result is [M[]] when a
    model is given and [unknown[]] otherwise. *)
Theorem query_other_kinds (kind : string) (m : bool) :
  ~ In kind dedicated_kinds ->
  query_result (typed kind m)
  = Some (Promise (TArray (if m then ref "M" else TUnknown))).
Proof.
  intros H.
  unfold query_result, query_signature, resolve, query_overloads, typed.
  cbn [find applicable sig_params param_accepts param_type options_admit
       qo_type qo_model existsb].
  decide_closed_tests. cbn [andb orb].
  change "QueryTypes.UPDATE" with ("QueryTypes." ++ "UPDATE")%string.
  change "QueryTypes.BULKUPDATE" with ("QueryTypes." ++ "BULKUPDATE")%string.
  change "QueryTypes.INSERT" with ("QueryTypes." ++ "INSERT")%string.
  change "QueryTypes.UPSERT" with ("QueryTypes." ++ "UPSERT")%string.
  change "QueryTypes.DELETE" with ("QueryTypes." ++ "DELETE")%string.
  change "QueryTypes.BULKDELETE" with ("QueryTypes." ++ "BULKDELETE")%string.
  change "QueryTypes.SHOWTABLES" with ("QueryTypes." ++ "SHOWTABLES")%string.
  change "QueryTypes.DESCRIBE" with ("QueryTypes." ++ "DESCRIBE")%string.
  change "QueryTypes.SELECT" with ("QueryTypes." ++ "SELECT")%string.
  rewrite !eqb_common_prefix.
  repeat match goal with
         | |- context [String.eqb ?K kind] =>
             destruct (String.eqb_spec K kind) as [E|_];
             [exfalso; apply H; rewrite <- E; vm_compute; tauto|]
         end.
  destruct m; reflexivity.
Qed.

Lemma query_other_kinds_witness :
  query_result (typed "RAW" false) = Some (Promise (TArray TUnknown)) /\
  query_result (typed "VERSION" true) = Some (Promise (TArray (ref "M"))).
Proof.
  split.
  - apply (query_other_kinds "RAW" false).
    vm_compute. intuition discriminate.
  - apply (query_other_kinds "VERSION" true).
    vm_compute. intuition discriminate.
Defined.

(** X15.  No overload of [query] is shadowed by the ones before it: for
    each of the eleven there is a call that selects it. *)
Theorem query_overloads_all_reachable :
  Forall (fun sg => exists a, query_signature a = Some sg) query_overloads.
Proof.
  unfold query_overloads.
  apply Forall_cons; [exists (typed "UPDATE" false); vm_compute; reflexivity|].
  apply Forall_cons;
    [exists (typed "BULKUPDATE" false); vm_compute; reflexivity|].
  apply Forall_cons; [exists (typed "INSERT" false); vm_compute; reflexivity|].
  apply Forall_cons; [exists (typed "UPSERT" false); vm_compute; reflexivity|].
  apply Forall_cons; [exists (typed "DELETE" false); vm_compute; reflexivity|].
  apply Forall_cons;
    [exists (typed "BULKDELETE" false); vm_compute; reflexivity|].
  apply Forall_cons;
    [exists (typed "SHOWTABLES" false); vm_compute; reflexivity|].
  apply Forall_cons;
    [exists (typed "DESCRIBE" false); vm_compute; reflexivity|].
  apply Forall_cons; [exists (Some (QO None true)); vm_compute; reflexivity|].
  apply Forall_cons; [exists (typed "SELECT" false); vm_compute; reflexivity|].
  apply Forall_cons; [exists None; vm_compute; reflexivity|].
  apply Forall_nil.
Qed.

(** *** The dialect *)



(** *** Instance methods *)

(** X17.  The methods declared without parameters accept the empty
    argument list and nothing else; [model] and [isDefined] accept exactly
    one string; [escape] accepts one string or number, and any other
    value only if the library type [Date] admits it. *)
Theorem instance_method_arguments
        (number : Type) (ext : string -> list ty -> value number -> bool)
        (k : nat) (args : list (value number)) :
  Forall (fun n =>
            match args with
            | [] => method_for ext k n args <> None
            | _ :: _ => method_for ext k n args = None
            end)
         [ "getDialect"; "getQueryInterface"; "random"; "close";
           "databaseVersion" ] /\
  option_map sig_ret (method_for ext k "model" args)
  = match args with
    | [VStr _] => Some (TTypeof "Model")
    | _ => None
    end /\
  option_map sig_ret (method_for ext k "isDefined" args)
  = match args with
    | [VStr _] => Some TBoolean
    | _ => None
    end /\
  option_map sig_ret (method_for ext k "escape" args)
  = match args with
    | [VStr _] | [VNum _] => Some TString
    | [v] => if ext "Date" [] v then Some TString else None
    | _ => None
    end.
Proof.
  split; [|split; [|split]].
  - repeat apply Forall_cons; try apply Forall_nil;
      destruct args; settle_call; (discriminate || reflexivity).
  - destruct args as [|[] [|b rest]]; settle_call; reflexivity.
  - destruct args as [|[] [|b rest]]; settle_call; reflexivity.
  - destruct args as [|v [|b rest]]; [settle_call; reflexivity| |].
    + expose_call. unfold admits_at. change (4 + k) with (S (3 + k)).
      rewrite admits_in_union. cbn [existsb].
      rewrite admits_in_imported by (vm_compute; reflexivity).
      rewrite !admits_in_ref_free by reflexivity.
      destruct v; cbn [admits orb andb];
        rewrite ?orb_false_r, ?andb_true_r;
        try reflexivity; destruct (ext "Date" [] _); reflexivity.
    + destruct v; settle_call; reflexivity.
Qed.

(** *** Names *)

(** X18.  Each static utility of the class is typed as the exported
    function of the same name, and each exported function has its static
    counterpart. *)
Theorem static_utilities_mirror_functions :
  Forall (fun nt => snd nt = TTypeof (fst nt) /\
                    functions_named (fst nt) sequelize_d_ts <> [])
         (static_fields (c_members Sequelize)) /\
  Forall (fun n => In n (map fst (static_fields (c_members Sequelize))))
         (function_names sequelize_d_ts) /\
  map fst (static_fields (c_members Sequelize))
  = ["fn"; "col"; "cast"; "literal"; "and"; "or"; "json"; "where"].
Proof.
  split; [|split].
  - tabulate (static_fields (c_members Sequelize)).
    repeat apply Forall_cons; try apply Forall_nil;
      (split; [reflexivity|vm_compute; discriminate]).
  - tabulate (static_fields (c_members Sequelize)).
    tabulate (function_names sequelize_d_ts).
    repeat apply Forall_cons; try apply Forall_nil; simpl; tauto.
  - vm_compute. reflexivity.
Qed.

Lemma mentioned_In (l : list string) (n : string) :
  mentioned l n = true <-> In n l.
Proof.
  unfold mentioned. rewrite existsb_exists. split.
  - intros (x & Hx & E). apply String.eqb_eq in E. now subst.
  - intros H. exists n. split; [exact H|apply String.eqb_refl].
Qed.

(** X19.  Every name the declarations refer to is bound: imported,
    declared in the file, or one of five library types.  Every
    declaration of the file is referred to somewhere in it, no import
    clashes with a declaration, and eleven imports are never used. *)
Theorem names_are_bound :
  let f := sequelize_d_ts in
  let refs := flat_map item_refs f in
  Forall (fun n => In n (imported_names f ++ declared_names f
                         ++ library_names)) refs /\
  Forall (fun n => In n refs) (declared_names f) /\
  Forall (fun n => ~ In n (declared_names f)) (imported_names f) /\
  filter (fun n => negb (mentioned refs n)) (imported_names f)
  = [ "Deferrable"; "HookReturn"; "ValidationOptions"; "BulkCreateOptions";
      "CreateOptions"; "FindOptions"; "InstanceDestroyOptions";
      "UpdateOptions"; "Op"; "Utils"; "validator" ].
Proof.
  cbv zeta.
  split; [|split; [|split]].
  - apply Forall_forall. intros n Hn. apply mentioned_In.
    revert n Hn. apply forallb_forall. vm_compute. reflexivity.
  - apply Forall_forall. intros n Hn. apply mentioned_In.
    revert n Hn. apply forallb_forall. vm_compute. reflexivity.
  - apply Forall_forall. intros n Hn Hd. apply mentioned_In in Hd.
    revert n Hn Hd.
    assert (forallb (fun n => negb (mentioned (declared_names sequelize_d_ts)
                                              n))
                    (imported_names sequelize_d_ts) = true) as H
        by (vm_compute; reflexivity).
    intros n Hn Hd. rewrite forallb_forall in H. specialize (H n Hn).
    rewrite Hd in H. discriminate H.
  - vm_compute. reflexivity.
Qed.
